(** * Interpolice API: the citation-penalty escalation engine

    A shallow embedding of [src/modules/citations/citations.model.js]
    ([calculatePenalty], [countCitationsByCitizenDB], [checkCitizenExistsDB],
    [createCitationDB]) and of the [createCitation] handler of
    [src/modules/citations/citations.controller.js], with the properties of
    the specification stated against them.

    Conventions of the embedding.
    - JavaScript numbers that the code only ever uses as integers (row
      counts, ordinals, days, hours, whole currency amounts such as
      [400.00]) are [Z].  A double represents every integer of magnitude
      below 2^53 exactly, and the counts come from SQL [COUNT( * )].
    - JavaScript strings are [string]; a template literal is a
      concatenation, a number inside it is printed in decimal.
    - An [async] function is a computation over the storage state that
      either returns or throws: the monad [M] below. *)

From Stdlib Require Import ZArith String List Bool Lia DecimalString.
From Stdlib Require Import Ascii.
Import ListNotations.

Open Scope Z_scope.
Open Scope string_scope.

(** ** The penalty calculator *)

Module Penalty.

(** The object literal built by [calculatePenalty]. *)
Record t : Type := mk {
  citation_number : Z;
  fine_amount : Z;
  civic_course_hours : Z;
  civic_work_days : Z;
  jail_days : Z;
  creates_criminal_record : bool;
  penalty_description : string
}.

(** Field assignments [penalty.f = v]. *)
Definition set_fine_amount (v : Z) (p : t) : t :=
  mk (citation_number p) v (civic_course_hours p) (civic_work_days p)
     (jail_days p) (creates_criminal_record p) (penalty_description p).

Definition set_civic_course_hours (v : Z) (p : t) : t :=
  mk (citation_number p) (fine_amount p) v (civic_work_days p)
     (jail_days p) (creates_criminal_record p) (penalty_description p).

Definition set_civic_work_days (v : Z) (p : t) : t :=
  mk (citation_number p) (fine_amount p) (civic_course_hours p) v
     (jail_days p) (creates_criminal_record p) (penalty_description p).

Definition set_jail_days (v : Z) (p : t) : t :=
  mk (citation_number p) (fine_amount p) (civic_course_hours p)
     (civic_work_days p) v (creates_criminal_record p) (penalty_description p).

Definition set_creates_criminal_record (v : bool) (p : t) : t :=
  mk (citation_number p) (fine_amount p) (civic_course_hours p)
     (civic_work_days p) (jail_days p) v (penalty_description p).

Definition set_penalty_description (v : string) (p : t) : t :=
  mk (citation_number p) (fine_amount p) (civic_course_hours p)
     (civic_work_days p) (jail_days p) (creates_criminal_record p) v.

End Penalty.

Import Penalty.

(** Decimal printing of a number inside a template literal. *)
Definition string_of_Z (z : Z) : string :=
  NilZero.string_of_int (Z.to_int z).

(** [calculatePenalty(previousCitations)]: the object literal, then the
    [switch] on [citationNumber], one branch per [case], assignments in the
    order of the source. *)
Definition calculatePenalty (previousCitations : Z) : Penalty.t :=
  let citationNumber := previousCitations + 1 in
  let penalty :=
    {| citation_number := citationNumber;
       fine_amount := 400;
       civic_course_hours := 48;
       civic_work_days := 0;
       jail_days := 0;
       creates_criminal_record := false;
       penalty_description := "" |} in
  match citationNumber with
  | 1 =>
      set_penalty_description
        "Primera amonestación: $400 + curso de 48 horas de normas cívicas"
        penalty
  | 2 =>
      let penalty := set_civic_work_days 2 penalty in
      set_penalty_description
        "Segunda amonestación: $400 + curso de 48 horas + 2 días de trabajo cívico"
        penalty
  | 3 =>
      let penalty := set_civic_course_hours 0 penalty in
      let penalty := set_civic_work_days 0 penalty in
      let penalty := set_jail_days 8 penalty in
      let penalty := set_creates_criminal_record true penalty in
      set_penalty_description
        "Tercera amonestación: 8 días de cárcel + registro en antecedentes penales"
        penalty
  | _ =>
      let penalty := set_fine_amount 0 penalty in
      let penalty := set_civic_course_hours 0 penalty in
      let penalty := set_jail_days (15 + (citationNumber - 3) * 5) penalty in
      let penalty := set_creates_criminal_record true penalty in
      set_penalty_description
        ("Múltiples amonestaciones (" ++ string_of_Z citationNumber ++ "): "
           ++ string_of_Z (jail_days penalty)
           ++ " días de cárcel + registro en antecedentes penales")
        penalty
  end.

(** ** Completion of a call *)

(** A call either returns a value or throws. *)
Inductive Outcome (E A : Type) : Type :=
| Returned (a : A)
| Thrown (e : E).

Arguments Returned {E A} a.
Arguments Thrown {E A} e.

(** The body of [calculatePenalty] has no [throw] and calls nothing that
    can throw (number arithmetic, assignments, a template literal over
    numbers): whatever number it is given, the call completes normally. *)
Definition calculatePenalty_call {E : Type} (previousCitations : Z)
  : Outcome E Penalty.t :=
  Returned (calculatePenalty previousCitations).

(** ** Storage rows (scripts/interpolice_bd.sql) *)

(** A row of table [citations]. *)
Module Citation.
Record t : Type := mk {
  id : Z;
  citizen_id : Z;
  date : Z;
  description : string;
  fine_amount : Z
}.
End Citation.

(** A row of table [criminal_records]. *)
Module CriminalRecord.
Record t : Type := mk {
  id : Z;
  citizen_id : Z;
  date : string;
  time : string;
  location : Z;
  description : string;
  crime_type : string
}.
End CriminalRecord.

(** The committed contents of the tables the engine touches.  Of
    [citizens] and [planets] only the primary keys matter here. *)
Record Tables : Type := mkTables {
  citizens : list Z;
  planets : list Z;
  citations : list Citation.t;
  criminal_records : list CriminalRecord.t
}.

(** A write staged inside an open transaction. *)
Inductive Staged : Type :=
| WCitation (row : Citation.t)
| WCriminalRecord (row : CriminalRecord.t).

Definition apply_write (tb : Tables) (wr : Staged) : Tables :=
  match wr with
  | WCitation row =>
      mkTables (citizens tb) (planets tb) (citations tb ++ [row])%list
               (criminal_records tb)
  | WCriminalRecord row =>
      mkTables (citizens tb) (planets tb) (citations tb)
               (criminal_records tb ++ [row])%list
  end.

Definition apply_writes (tb : Tables) (ws : list Staged) : Tables :=
  fold_left apply_write ws tb.

(** The storage calls of the engine, one name per call in the source. *)
Inductive Site : Type :=
| SExists          (* checkCitizenExistsDB: SELECT id FROM citizens *)
| SCount           (* countCitationsByCitizenDB, called by createCitationDB *)
| SGetConnection   (* connection.getConnection(): throws, storage is not asked *)
| SBegin           (* dbConnection.beginTransaction() *)
| SInsertCitation  (* INSERT INTO citations SET ? *)
| SInsertRecord    (* INSERT INTO criminal_records SET ? *)
| SCommit          (* dbConnection.commit() *)
| SRollback        (* dbConnection.rollback() *)
| SCtlCount        (* countCitationsByCitizenDB, called by the controller *)
| SCtlFetch.       (* getCitationByIdDB, called by the controller *)

(** What a call can throw: [new Error(message)] of the code itself, a
    rejection by the storage driver, or a [TypeError] of the runtime. *)
Inductive Error : Type :=
| JsError (message : string)
| DriverError (site : Site) (message : string)
| TypeError (message : string).

Definition message (e : Error) : string :=
  match e with
  | JsError m => m
  | DriverError _ m => m
  | TypeError m => m
  end.

Definition citizenNotFound : Error :=
  JsError "El ciudadano especificado no existe".

(** The object passed to [INSERT INTO citations SET ?]. *)
Record NewCitation : Type := mkNewCitation {
  nc_citizen_id : Z;
  nc_date : Z;
  nc_description : string;
  nc_fine_amount : Z
}.

(** The object passed to [INSERT INTO criminal_records SET ?]. *)
Record NewCriminalRecord : Type := mkNewCriminalRecord {
  nr_citizen_id : Z;
  nr_date : string;
  nr_time : string;
  nr_location : Z;
  nr_description : string;
  nr_crime_type : string
}.

(** What the engine asks of storage, in order: the observable history of
    a call.  An event is recorded when the call is made, whether or not
    storage then rejects it. *)
Inductive Event : Type :=
| EQuery (site : Site)
| EGetConnection
| EBegin
| EInsertCitation (row : NewCitation)
| EInsertRecord (row : NewCriminalRecord)
| ECommit
| ERollback
| ERelease.

(** The state the engine runs against. *)
Record World : Type := mkWorld {
  tables : Tables;              (* committed rows *)
  next_citation_id : Z;         (* AUTO_INCREMENT of citations *)
  next_record_id : Z;           (* AUTO_INCREMENT of criminal_records *)
  txn : option (list Staged);    (* open transaction of the acquired connection *)
  borrowed : nat;               (* connections acquired and not yet released *)
  trace : list Event
}.

(** What one call does not control: which storage calls are rejected (and
    with which message), what [new Date()] reads (the k-th reading of the
    call), how the runtime formats a date, and what other requests commit
    while the controller is suspended between its own count and the
    coordinator. *)
Record Env : Type := mkEnv {
  faults : Site -> option string;
  now : nat -> Z;
  toISODate : Z -> string;      (* d.toISOString().split('T')[0] *)
  toTimeString : Z -> string;   (* d.toTimeString().split(' ')[0] *)
  concurrent : Tables -> Tables
}.

(** ** Computations over storage *)

Definition M (A : Type) : Type := World -> Outcome Error A * World.

Definition ret {A : Type} (a : A) : M A := fun w => (Returned a, w).

Definition throw {A : Type} (e : Error) : M A := fun w => (Thrown e, w).

Definition bind {A B : Type} (m : M A) (k : A -> M B) : M B :=
  fun w =>
    match m w with
    | (Returned a, w') => k a w'
    | (Thrown e, w') => (Thrown e, w')
    end.

Declare Scope js_scope.
Delimit Scope js_scope with js.
Notation "x <- m ;; k" := (bind m (fun x => k))
  (at level 61, m at next level, right associativity) : js_scope.
Notation "m ;; k" := (bind m (fun _ => k))
  (at level 61, right associativity) : js_scope.
Open Scope js_scope.

Definition get : M World := fun w => (Returned w, w).

Definition modify (f : World -> World) : M unit := fun w => (Returned tt, f w).

(** [try { body } catch (error) { handler } finally { finalizer }]. *)
Definition try_catch_finally {A : Type}
    (body : M A) (handler : Error -> M A) (finalizer : M unit) : M A :=
  fun w =>
    let '(r, w1) :=
      match body w with
      | (Returned a, w') => (Returned a, w')
      | (Thrown e, w') => handler e w'
      end in
    match finalizer w1 with
    | (Returned _, w2) => (r, w2)
    | (Thrown e, w2) => (Thrown e, w2)
    end.

(** [try { body } catch (error) { handler }]. *)
Definition try_catch {A : Type} (body : M A) (handler : Error -> M A) : M A :=
  fun w =>
    match body w with
    | (Returned a, w') => (Returned a, w')
    | (Thrown e, w') => handler e w'
    end.

(** ** The storage handle

    [connection] is the handle exported by [config/Database.js]: the
    single connection that [mysql.createConnection] of mysql2/promise
    resolves to.  It has [query], a round trip that storage may reject.
    It has no [getConnection]: that is a method of pools. *)

Definition emit (ev : Event) : M unit :=
  modify (fun w =>
    mkWorld (tables w) (next_citation_id w) (next_record_id w) (txn w)
            (borrowed w) (trace w ++ [ev])%list).

Definition set_txn (t : option (list Staged)) (w : World) : World :=
  mkWorld (tables w) (next_citation_id w) (next_record_id w) t
          (borrowed w) (trace w).

Definition set_tables (tb : Tables) (w : World) : World :=
  mkWorld tb (next_citation_id w) (next_record_id w) (txn w)
          (borrowed w) (trace w).

Definition set_borrowed (n : nat) (w : World) : World :=
  mkWorld (tables w) (next_citation_id w) (next_record_id w) (txn w)
          n (trace w).

(** A write goes to the open transaction of the connection, or straight
    to the tables when none is open (autocommit). *)
Definition stage (wr : Staged) (w : World) : World :=
  match txn w with
  | Some ws => set_txn (Some (ws ++ [wr])%list) w
  | None => set_tables (apply_write (tables w) wr) w
  end.

Definition mem (k : Z) (keys : list Z) : bool := existsb (Z.eqb k) keys.

Definition foreign_key_fails : string :=
  "Cannot add or update a child row: a foreign key constraint fails".

Definition includes (s sub : string) : bool :=
  match String.index 0 sub s with
  | Some _ => true
  | None => false
  end.

Section Engine.

Variable env : Env.

(** The storage round trip of a call: rejected when the environment says
    so. *)
Definition round_trip (site : Site) : M unit :=
  match faults env site with
  | Some m => throw (DriverError site m)
  | None => ret tt
  end.

(** [connection.getConnection()]: the handle has no such method, so the
    call throws a [TypeError] before anything is asked of storage. *)
Definition getConnection : M unit :=
  throw (TypeError "connection.getConnection is not a function").

(** The methods the source calls on the connection it expects back. *)
Definition beginTransaction : M unit :=
  emit EBegin ;;
  round_trip SBegin ;;
  modify (set_txn (Some [])).

(** [INSERT INTO citations SET ?]: the row gets the next identifier; the
    foreign key [citations_ibfk_1] must hold. *)
Definition insert_citation (row : NewCitation) : M Z :=
  emit (EInsertCitation row) ;;
  round_trip SInsertCitation ;;
  w <- get ;;
  if negb (mem (nc_citizen_id row) (citizens (tables w)))
  then throw (DriverError SInsertCitation foreign_key_fails)
  else
    let insertId := next_citation_id w in
    modify (fun w =>
      stage (WCitation (Citation.mk insertId (nc_citizen_id row) (nc_date row)
                          (nc_description row) (nc_fine_amount row)))
        (mkWorld (tables w) (insertId + 1) (next_record_id w) (txn w)
                 (borrowed w) (trace w))) ;;
    ret insertId.

(** [INSERT INTO criminal_records SET ?]: foreign keys
    [criminal_records_ibfk_1] and [criminal_records_planets]. *)
Definition insert_criminal_record (row : NewCriminalRecord) : M Z :=
  emit (EInsertRecord row) ;;
  round_trip SInsertRecord ;;
  w <- get ;;
  if negb (mem (nr_citizen_id row) (citizens (tables w))
           && mem (nr_location row) (planets (tables w)))
  then throw (DriverError SInsertRecord foreign_key_fails)
  else
    let insertId := next_record_id w in
    modify (fun w =>
      stage (WCriminalRecord
               (CriminalRecord.mk insertId (nr_citizen_id row) (nr_date row)
                  (nr_time row) (nr_location row) (nr_description row)
                  (nr_crime_type row)))
        (mkWorld (tables w) (next_citation_id w) (insertId + 1) (txn w)
                 (borrowed w) (trace w))) ;;
    ret insertId.

(** [dbConnection.commit()]: the staged writes reach the tables together. *)
Definition commit : M unit :=
  emit ECommit ;;
  round_trip SCommit ;;
  modify (fun w =>
    match txn w with
    | Some ws => set_txn None (set_tables (apply_writes (tables w) ws) w)
    | None => w
    end).

(** [dbConnection.rollback()]: the staged writes are dropped. *)
Definition rollback : M unit :=
  emit ERollback ;;
  round_trip SRollback ;;
  modify (set_txn None).

(** [dbConnection.release()]. *)
Definition release : M unit :=
  emit ERelease ;;
  modify (fun w => set_borrowed (pred (borrowed w)) w).

(** ** Read queries *)

Definition citations_of (citizenId : Z) (tb : Tables) : list Citation.t :=
  filter (fun c => Z.eqb (Citation.citizen_id c) citizenId) (citations tb).

Definition records_of (citizenId : Z) (tb : Tables) : list CriminalRecord.t :=
  filter (fun r => Z.eqb (CriminalRecord.citizen_id r) citizenId)
         (criminal_records tb).

(** [SELECT COUNT( * ) as total FROM citations WHERE citizen_id = ?]. *)
Definition count_citations (citizenId : Z) (tb : Tables) : Z :=
  Z.of_nat (length (citations_of citizenId tb)).

(** [countCitationsByCitizenDB(citizenId)]; [site] names the caller. *)
Definition countCitationsByCitizenDB (site : Site) (citizenId : Z) : M Z :=
  emit (EQuery site) ;;
  round_trip site ;;
  w <- get ;;
  ret (count_citations citizenId (tables w)).

(** [checkCitizenExistsDB(citizenId)]: [rows.length > 0]. *)
Definition checkCitizenExistsDB (citizenId : Z) : M bool :=
  emit (EQuery SExists) ;;
  round_trip SExists ;;
  w <- get ;;
  let rows := filter (Z.eqb citizenId) (citizens (tables w)) in
  ret (0 <? length rows)%nat.

(** [getCitationByIdDB(citationId)]: the join with [citizens], then
    [rows[0] || null]. *)
Definition getCitationByIdDB (citationId : Z) : M (option Citation.t) :=
  emit (EQuery SCtlFetch) ;;
  round_trip SCtlFetch ;;
  w <- get ;;
  let rows :=
    filter (fun c => Z.eqb (Citation.id c) citationId
                     && mem (Citation.citizen_id c) (citizens (tables w)))
           (citations (tables w)) in
  ret (hd_error rows).

(** ** The citation transaction coordinator *)

(** The validated request body: the fields the coordinator reads, and a
    [fine_amount] a caller may have put in the body. *)
Record CitationData : Type := mkCitationData {
  citizen_id : Z;
  description : string;
  supplied_fine_amount : option Z
}.

(** The object returned by [createCitationDB]. *)
Record CreateResult : Type := mkCreateResult {
  insertId : Z;
  penalty : Penalty.t;
  criminal_record_created : bool
}.

Definition default_location : Z := 1.

Definition accumulated_crime_type : string :=
  "Acumulación de citaciones menores".

(** The template literal of the automatic record's description. *)
Definition automatic_description (citationNumber : Z) (text : string) : string :=
  "Registro automático por acumulación de " ++ string_of_Z citationNumber
    ++ " citaciones menores. Última infracción: " ++ text.

(** [createCitationDB(citationData)]. *)
Definition createCitationDB (citationData : CitationData) : M CreateResult :=
  citizenExists <- checkCitizenExistsDB (citizen_id citationData) ;;
  if negb citizenExists then throw citizenNotFound
  else
    previousCitations <-
      countCitationsByCitizenDB SCount (citizen_id citationData) ;;
    let penalty := calculatePenalty previousCitations in
    let newCitation :=
      {| nc_citizen_id := citizen_id citationData;
         nc_date := now env 0;
         nc_description := description citationData;
         nc_fine_amount := Penalty.fine_amount penalty |} in
    getConnection ;;
    beginTransaction ;;
    try_catch_finally
      (insertId <- insert_citation newCitation ;;
       (if creates_criminal_record penalty
        then
          let criminalRecord :=
            {| nr_citizen_id := citizen_id citationData;
               nr_date := toISODate env (now env 1);
               nr_time := toTimeString env (now env 2);
               nr_location := default_location;
               nr_description :=
                 automatic_description (citation_number penalty)
                                       (description citationData);
               nr_crime_type := accumulated_crime_type |} in
          insert_criminal_record criminalRecord ;; ret tt
        else ret tt) ;;
       commit ;;
       ret {| insertId := insertId;
              penalty := penalty;
              criminal_record_created := creates_criminal_record penalty |})
      (fun error => rollback ;; throw error)
      release.

(** ** The HTTP handler *)

(** [req.params.citizenId] after the route's
    [param('citizenId').isInt({ min: 1 })...toInt()], and [req.body]. *)
Record Request : Type := mkRequest {
  param_citizenId : Z;
  req_body : CitationData
}.

(** [parseInt] of a number that is already an integer is that integer. *)
Definition parseInt (n : Z) : Z := n.

Record CitationView : Type := mkCitationView {
  cv_id : Z;
  cv_citizen_id : Z;
  cv_date : Z;
  cv_description : string;
  cv_fine_amount : Z
}.

Record PenaltyDetails : Type := mkPenaltyDetails {
  pd_citation_number : Z;
  pd_fine_amount : Z;
  pd_civic_course_hours : Z;
  pd_civic_work_days : Z;
  pd_jail_days : Z;
  pd_penalty_description : string
}.

Record AutomaticActions : Type := mkAutomaticActions {
  aa_criminal_record_created : bool;
  aa_warning : option string
}.

Inductive Body : Type :=
| Created (citation : CitationView) (penalty_details : PenaltyDetails)
          (automatic_actions : AutomaticActions)
| Failed (msg : string) (error : option string).

(** [res.status(code).json(body)]. *)
Record Response : Type := mkResponse {
  status : Z;
  body : Body
}.

Definition details_of (p : Penalty.t) : PenaltyDetails :=
  {| pd_citation_number := citation_number p;
     pd_fine_amount := Penalty.fine_amount p;
     pd_civic_course_hours := civic_course_hours p;
     pd_civic_work_days := civic_work_days p;
     pd_jail_days := jail_days p;
     pd_penalty_description := penalty_description p |}.

(** Other requests run while the handler is suspended: what they have
    committed is in the tables when it resumes. *)
Definition suspended : M unit :=
  modify (fun w => set_tables (concurrent env (tables w)) w).

(** [createCitation(req, res)].  The handler is suspended at every
    [await]; the suspension written out is the one between its own count
    and the count of the coordinator. *)
Definition createCitation (req : Request) : M Response :=
  try_catch
    (let citizenId := param_citizenId req in
     let citationData :=
       {| citizen_id := parseInt citizenId;
          description := description (req_body req);
          supplied_fine_amount := supplied_fine_amount (req_body req) |} in
     previousCitations <- countCitationsByCitizenDB SCtlCount citizenId ;;
     let penalty := calculatePenalty previousCitations in
     suspended ;;
     result <- createCitationDB citationData ;;
     newCitation <- getCitationByIdDB (insertId result) ;;
     match newCitation with
     | None => throw (TypeError "Cannot read properties of null (reading 'id')")
     | Some row =>
         ret {| status := if criminal_record_created result then 202 else 201;
                body :=
                  Created
                    {| cv_id := Citation.id row;
                       cv_citizen_id := Citation.citizen_id row;
                       cv_date := Citation.date row;
                       cv_description := Citation.description row;
                       cv_fine_amount := Citation.fine_amount row |}
                    (details_of penalty)
                    {| aa_criminal_record_created := criminal_record_created result;
                       aa_warning :=
                         if criminal_record_created result
                         then Some "ATENCIÓN: Se ha creado automáticamente un antecedente penal por acumulación de citaciones"
                         else None |} |}
     end)
    (fun error =>
       if includes (message error) "no existe"
       then ret {| status := 400; body := Failed (message error) None |}
       else ret {| status := 500;
                   body := Failed "Error interno del servidor al crear la citación"
                                  (Some (message error)) |}).

End Engine.

(** ** Sample environments and states *)

(** Storage answers every call; the clock reads 1000, 1001, 1002. *)
Definition calm : Env :=
  {| faults := fun _ => None;
     now := fun k => 1000 + Z.of_nat k;
     toISODate := fun _ => "2025-01-01";
     toTimeString := fun _ => "12:00:00";
     concurrent := fun tb => tb |}.

(** As [calm], with the call at [site] rejected. *)
Definition failing (site : Site) (m : string) : Env :=
  {| faults := fun s =>
       match s, site with
       | SExists, SExists | SCount, SCount | SGetConnection, SGetConnection
       | SBegin, SBegin | SInsertCitation, SInsertCitation
       | SInsertRecord, SInsertRecord | SCommit, SCommit
       | SRollback, SRollback | SCtlCount, SCtlCount
       | SCtlFetch, SCtlFetch => Some m
       | _, _ => None
       end;
     now := now calm;
     toISODate := toISODate calm;
     toTimeString := toTimeString calm;
     concurrent := concurrent calm |}.

Definition sample_citation (i : Z) : Citation.t :=
  Citation.mk i 7 900 "ruido excesivo en la noche" 400.

(** Citizen 7 exists, planet 1 exists, citizen 7 has [n] citations. *)
Definition world_with (n : nat) : World :=
  {| tables :=
       {| citizens := [7];
          planets := [1];
          citations := map (fun k => sample_citation (Z.of_nat k)) (seq 1 n);
          criminal_records := [] |};
     next_citation_id := Z.of_nat n + 1;
     next_record_id := 1;
     txn := None;
     borrowed := 0;
     trace := [] |}.

Definition loud_music : CitationData :=
  {| citizen_id := 7;
     description := "loud music after hours";
     supplied_fine_amount := Some 5 |}.

(** ** Vocabulary of the statements *)


(** ** The penalty summary and the deletion of a citation *)

(** The object returned by [getCitizenPenaltySummaryDB]. *)
Record PenaltySummary : Type := mkPenaltySummary {
  total_citations : Z;
  total_fines : Z;
  next_penalty : Penalty.t
}.

(** [SELECT SUM(fine_amount) as total_fines FROM citations WHERE
    citizen_id = ?]: [NULL] when the citizen has no row. *)
Definition sum_fines (citizenId : Z) (tb : Tables) : option Z :=
  match citations_of citizenId tb with
  | [] => None
  | rows =>
      Some (fold_right (fun c acc => Citation.fine_amount c + acc) 0 rows)
  end.

(** [v || 0] on a number or [null]. *)
Definition or_zero (v : option Z) : Z :=
  match v with
  | Some x => if Z.eqb x 0 then 0 else x
  | None => 0
  end.

(** The [data] object of the penalty-summary response. *)
Record SummaryWarnings : Type := mkSummaryWarnings {
  approaching_criminal_record : option string;
  escalation_notice : option string
}.

Record SummaryData : Type := mkSummaryData {
  sd_citizen_id : Z;
  sd_total_citations : Z;
  sd_total_fines : Z;
  sd_next_citation_penalty : Penalty.t;
  sd_warnings : SummaryWarnings
}.

(** The [data] object of the deletion response, without the citizen's
    name: of [citizens] the tables hold the keys only. *)
Record DeletedData : Type := mkDeletedData {
  dd_id : Z;
  dd_citizen_id : Z;
  dd_deleted : bool;
  dd_warning : string
}.

(** A JSON body: the [data] of a success, or the [message] and, where
    the handler adds it, the [error] of a failure. *)
Inductive Payload (A : Type) : Type :=
| Data (a : A)
| Fault (msg : string) (error : option string).

Arguments Data {A} a.
Arguments Fault {A} msg error.

Record Reply (A : Type) : Type := mkReply {
  code : Z;
  payload : Payload A
}.

Arguments mkReply {A}.
Arguments code {A}.
Arguments payload {A}.

Section ReadSide.

Variable env : Env.

(** [getCitizenPenaltySummaryDB(citizenId)]; the two sites name its two
    queries. *)
Definition getCitizenPenaltySummaryDB (countSite sumSite : Site)
    (citizenId : Z) : M PenaltySummary :=
  citationsCount <- countCitationsByCitizenDB env countSite citizenId ;;
  let nextPenalty := calculatePenalty citationsCount in
  emit (EQuery sumSite) ;;
  round_trip env sumSite ;;
  w <- get ;;
  let fineStats := sum_fines citizenId (tables w) in
  ret {| total_citations := citationsCount;
         total_fines := or_zero fineStats;
         next_penalty := nextPenalty |}.

(** [getCitizenPenaltySummary(req, res)], on the validated
    [req.params.citizenId]. *)
Definition getCitizenPenaltySummary (countSite sumSite : Site)
    (citizenId : Z) : M (Reply SummaryData) :=
  try_catch
    (summary <- getCitizenPenaltySummaryDB countSite sumSite citizenId ;;
     ret {| code := 200;
            payload :=
              Data
                {| sd_citizen_id := parseInt citizenId;
                   sd_total_citations := total_citations summary;
                   sd_total_fines := total_fines summary;
                   sd_next_citation_penalty := next_penalty summary;
                   sd_warnings :=
                     {| approaching_criminal_record :=
                          if Z.leb 2 (total_citations summary)
                          then Some "ADVERTENCIA: La próxima citación resultará en antecedentes penales"
                          else None;
                        escalation_notice :=
                          if Z.ltb 0 (total_citations summary)
                          then Some ("El ciudadano tiene "
                                       ++ string_of_Z (total_citations summary)
                                       ++ " citación(es) previa(s)")
                          else None |} |} |})
    (fun error =>
       ret {| code := 500;
              payload :=
                Fault "Error interno del servidor al obtener resumen de penalizaciones"
                      (Some (message error)) |}).

(** [deleteCitationDB(citationId)]: [DELETE FROM citations WHERE id = ?]
    through the handle; the value returned is [result.affectedRows]. *)
Definition deleteCitationDB (site : Site) (citationId : Z) : M Z :=
  emit (EQuery site) ;;
  round_trip env site ;;
  w <- get ;;
  let doomed :=
    filter (fun c => Z.eqb (Citation.id c) citationId) (citations (tables w)) in
  modify (fun w =>
    set_tables
      (mkTables (citizens (tables w)) (planets (tables w))
         (filter (fun c => negb (Z.eqb (Citation.id c) citationId))
                 (citations (tables w)))
         (criminal_records (tables w))) w) ;;
  ret (Z.of_nat (length doomed)).

(** [deleteCitation(req, res)], on the validated
    [req.params.citationId]. *)
Definition deleteCitation (site : Site) (citationId : Z)
  : M (Reply DeletedData) :=
  try_catch
    (existingCitation <- getCitationByIdDB env citationId ;;
     match existingCitation with
     | None =>
         ret {| code := 404; payload := Fault "Citación no encontrada" None |}
     | Some existing =>
         affectedRows <- deleteCitationDB site citationId ;;
         if Z.eqb affectedRows 0
         then ret {| code := 404;
                     payload := Fault "No se pudo eliminar la citación" None |}
         else
           ret {| code := 200;
                  payload :=
                    Data
                      {| dd_id := parseInt citationId;
                         dd_citizen_id := Citation.citizen_id existing;
                         dd_deleted := true;
                         dd_warning :=
                           "NOTA: La eliminación de citaciones puede afectar el historial de penalizaciones del ciudadano" |} |}
     end)
    (fun error =>
       ret {| code := 500;
              payload :=
                Fault "Error interno del servidor al eliminar la citación"
                      (Some (message error)) |}).

End ReadSide.

(** Every stored row has a key below the next one the table will hand
    out. *)
Definition fresh_keys (w : World) : bool :=
  forallb (fun c => Z.ltb (Citation.id c) (next_citation_id w))
          (citations (tables w))
  && forallb (fun r => Z.ltb (CriminalRecord.id r) (next_record_id w))
             (criminal_records (tables w)).

(** The foreign keys of the schema hold in the stored rows. *)
Definition references_hold (tb : Tables) : bool :=
  forallb (fun c => mem (Citation.citizen_id c) (citizens tb)) (citations tb)
  && forallb (fun r => mem (CriminalRecord.citizen_id r) (citizens tb)
                       && mem (CriminalRecord.location r) (planets tb))
             (criminal_records tb).

(** ** Listing and search: the statements handed to storage

    [getAllCitationsDB] and [searchCitationsDB] build a statement text and
    a parameter list and hand both to [connection.query].  The filters are
    whatever the query string of the request held, so the JavaScript
    values stay abstract: all the builders do with a value is test its
    truthiness, apply [parseInt] to it, or put it in the template literal
    that wraps it in [%]. *)

Class JsValues (V : Type) : Type := {
  js_truthy : V -> bool;        (* if (v) *)
  js_parseInt : V -> V;         (* parseInt(v) *)
  js_wildcard : V -> V          (* the template literal %v% *)
}.

(** The [filters] object of [getAllCitationsDB]; an absent key reads as
    [undefined], a value like any other. *)
Record Filters (V : Type) : Type := mkFilters {
  f_location : V;
  f_date_from : V;
  f_date_to : V;
  f_fine_amount_min : V;
  f_fine_amount_max : V;
  f_limit : V;
  f_offset : V
}.

Arguments mkFilters {V}.
Arguments f_location {V}.
Arguments f_date_from {V}.
Arguments f_date_to {V}.
Arguments f_fine_amount_min {V}.
Arguments f_fine_amount_max {V}.
Arguments f_limit {V}.
Arguments f_offset {V}.

(** The [searchCriteria] object of [searchCitationsDB]. *)
Record SearchCriteria (V : Type) : Type := mkSearchCriteria {
  s_term : V;
  s_citizen_name : V;
  s_limit : V;
  s_offset : V
}.

Arguments mkSearchCriteria {V}.
Arguments s_term {V}.
Arguments s_citizen_name {V}.
Arguments s_limit {V}.
Arguments s_offset {V}.

(** The template literal both functions start from. *)
Definition select_citations : string :=
"
    SELECT 
      ct.id, 
      ct.citizen_id, 
      ct.date, 
      ct.description, 
      ct.fine_amount,
      c.full_name as citizen_name,
      c.last_name as citizen_last_name,
      c.qr_code as citizen_qr_code
    FROM citations ct
    INNER JOIN citizens c ON ct.citizen_id = c.id
    WHERE 1=1
  ".

(** The fragment [searchCitationsDB] appends for [term]. *)
Definition term_clause : string :=
" AND (
      ct.description LIKE ? OR 
      c.full_name LIKE ? OR 
      c.last_name LIKE ?
    )".

(** [if (c) { query += text; params.push(...vs) }] on the pair built so
    far. *)
Definition add_when {V : Type} (c : bool) (text : string) (vs : list V)
    (acc : string * list V) : string * list V :=
  if c then (fst acc ++ text, (snd acc ++ vs)%list) else acc.

(** The pagination block shared by both functions: [LIMIT ?] when
    [limit] is truthy and, inside that branch only, [OFFSET ?]. *)
Definition paginate {V : Type} `{JsValues V} (limit offset : V)
    (acc : string * list V) : string * list V :=
  if js_truthy limit
  then
    let acc := (fst acc ++ " LIMIT ?", (snd acc ++ [js_parseInt limit])%list) in
    add_when (js_truthy offset) " OFFSET ?" [js_parseInt offset] acc
  else acc.

(** The arguments [getAllCitationsDB(filters)] passes to
    [connection.query]. *)
Definition getAllCitationsDB_statement {V : Type} `{JsValues V}
    (filters : Filters V) : string * list V :=
  let acc := (select_citations, []) in
  let acc := add_when (js_truthy (f_location filters))
               " AND ct.description LIKE ?"
               [js_wildcard (f_location filters)] acc in
  let acc := add_when (js_truthy (f_date_from filters))
               " AND ct.date >= ?" [f_date_from filters] acc in
  let acc := add_when (js_truthy (f_date_to filters))
               " AND ct.date <= ?" [f_date_to filters] acc in
  let acc := add_when (js_truthy (f_fine_amount_min filters))
               " AND ct.fine_amount >= ?" [f_fine_amount_min filters] acc in
  let acc := add_when (js_truthy (f_fine_amount_max filters))
               " AND ct.fine_amount <= ?" [f_fine_amount_max filters] acc in
  let acc := (fst acc ++ " ORDER BY ct.date DESC", snd acc) in
  paginate (f_limit filters) (f_offset filters) acc.

(** The arguments [searchCitationsDB(searchCriteria)] passes to
    [connection.query]. *)
Definition searchCitationsDB_statement {V : Type} `{JsValues V}
    (searchCriteria : SearchCriteria V) : string * list V :=
  let acc := (select_citations, []) in
  let termPattern := js_wildcard (s_term searchCriteria) in
  let acc := add_when (js_truthy (s_term searchCriteria)) term_clause
               [termPattern; termPattern; termPattern] acc in
  let namePattern := js_wildcard (s_citizen_name searchCriteria) in
  let acc := add_when (js_truthy (s_citizen_name searchCriteria))
               " AND (c.full_name LIKE ? OR c.last_name LIKE ?)"
               [namePattern; namePattern] acc in
  let acc := (fst acc ++ " ORDER BY ct.date DESC", snd acc) in
  paginate (s_limit searchCriteria) (s_offset searchCriteria) acc.

(** The number of [?] placeholders of a statement text. *)
Fixpoint placeholders (s : string) : nat :=
  match s with
  | EmptyString => 0
  | String c rest =>
      (if Ascii.eqb c "?"%char then 1 else 0) + placeholders rest
  end%nat.

(** Sample values for the witnesses below: [undefined], a string, a
    number, with JavaScript's truthiness.  The samples pass numbers to
    [parseInt], which returns them. *)
Inductive SampleValue : Type :=
| Undefined
| Str (s : string)
| Num (n : Z).

#[global] Instance sample_values : JsValues SampleValue := {
  js_truthy v :=
    match v with
    | Undefined => false
    | Str s => negb (String.eqb s "")
    | Num n => negb (Z.eqb n 0)
    end;
  js_parseInt v := v;
  js_wildcard v :=
    match v with
    | Str s => Str ("%" ++ s ++ "%")
    | Num n => Str ("%" ++ string_of_Z n ++ "%")
    | Undefined => Str "%undefined%"
    end
}.

(** * Properties *)

(** ** The ladder *)

(** Outside ordinals 1, 2 and 3 the [default] branch of the [switch]
    runs. *)
Lemma calculatePenalty_default (n : Z) :
  n <> 0 -> n <> 1 -> n <> 2 ->
  calculatePenalty n =
    {| citation_number := n + 1;
       Penalty.fine_amount := 0;
       civic_course_hours := 0;
       civic_work_days := 0;
       jail_days := 15 + (n + 1 - 3) * 5;
       creates_criminal_record := true;
       penalty_description :=
         "Múltiples amonestaciones (" ++ string_of_Z (n + 1) ++ "): "
           ++ string_of_Z (15 + (n + 1 - 3) * 5)
           ++ " días de cárcel + registro en antecedentes penales" |}.
Proof.
  intros H0 H1 H2.
  unfold calculatePenalty.
  remember (n + 1) as c eqn:Hc.
  assert (c <> 1 /\ c <> 2 /\ c <> 3) as (C1 & C2 & C3) by lia.
  clear Hc H0 H1 H2.
  destruct c as [|p|p]; try reflexivity.
  destruct p as [[q|q|]|[q|q|]|]; try reflexivity; congruence.
Qed.

(** The record flag is raised exactly from the third citation on. *)
Lemma creates_criminal_record_iff (n : Z) :
  0 <= n ->
  creates_criminal_record (calculatePenalty n) = Z.leb 3 (n + 1).
Proof.
  intros Hn.
  destruct (Z.eq_dec n 0) as [->|H0]; [reflexivity|].
  destruct (Z.eq_dec n 1) as [->|H1]; [reflexivity|].
  destruct (Z.eq_dec n 2) as [->|H2]; [reflexivity|].
  rewrite calculatePenalty_default by assumption.
  cbn [citation_number Penalty.fine_amount civic_course_hours civic_work_days
       jail_days creates_criminal_record].
  symmetry. apply Z.leb_le. lia.
Qed.

Lemma citation_number_calculatePenalty (n : Z) :
  citation_number (calculatePenalty n) = n + 1.
Proof.
  unfold calculatePenalty.
  destruct (n + 1) as [|p|p]; try reflexivity.
  destruct p as [[q|q|]|[q|q|]|]; reflexivity.
Qed.

(** C1 (as the code has it): for prior-citation count 2 the calculator
    returns citation number 3, no course hours, no civic-work days, 8 jail
    days and the record flag, but the fine is still the base amount 400:
    [case 3] never resets [fine_amount], so the claimed fine of 0 is not
    what is returned. *)
Theorem calculatePenalty_third_fine_is_base :
  calculatePenalty 2 =
    {| citation_number := 3;
       Penalty.fine_amount := 400;
       civic_course_hours := 0;
       civic_work_days := 0;
       jail_days := 8;
       creates_criminal_record := true;
       penalty_description :=
         "Tercera amonestación: 8 días de cárcel + registro en antecedentes penales" |}
  /\ Penalty.fine_amount (calculatePenalty 2) <> 0.
Proof.
  split; [reflexivity|].
  cbn. discriminate.
Qed.

(** C5 (refuted as stated): given the negative count -1 the calculator
    does not throw; it returns the outcome of the [default] branch, with
    citation number 0, 0 jail days and the record flag raised. *)
Lemma calculatePenalty_negative_returns :
  (forall e : Error, calculatePenalty_call (-1) <> Thrown e)
  /\ @calculatePenalty_call Error (-1) =
       Returned
         {| citation_number := 0;
            Penalty.fine_amount := 0;
            civic_course_hours := 0;
            civic_work_days := 0;
            jail_days := 0;
            creates_criminal_record := true;
            penalty_description :=
              "Múltiples amonestaciones (0): 0 días de cárcel + registro en antecedentes penales" |}.
Proof.
  split; [intros e; discriminate | reflexivity].
Qed.

(** C5 (amended): for every negative prior-citation count [n] the
    calculator completes normally and returns the outcome of its
    [default] branch: citation number [n + 1], fine 0, course hours 0,
    civic-work days 0, jail days [15 + 5 * ((n + 1) - 3)], record flag
    raised. *)
Theorem calculatePenalty_negative_default (n : Z) :
  n < 0 ->
  exists p : Penalty.t,
    @calculatePenalty_call Error n = Returned p
    /\ citation_number p = n + 1
    /\ Penalty.fine_amount p = 0
    /\ civic_course_hours p = 0
    /\ civic_work_days p = 0
    /\ jail_days p = 15 + 5 * ((n + 1) - 3)
    /\ creates_criminal_record p = true.
Proof.
  intros Hn.
  exists (calculatePenalty n).
  split; [reflexivity|].
  rewrite calculatePenalty_default by lia.
  cbn [citation_number Penalty.fine_amount civic_course_hours civic_work_days
       jail_days creates_criminal_record].
  repeat split; lia.
Qed.

Lemma calculatePenalty_negative_default_witness :
  exists p : Penalty.t,
    @calculatePenalty_call Error (-4) = Returned p
    /\ citation_number p = -4 + 1
    /\ Penalty.fine_amount p = 0
    /\ civic_course_hours p = 0
    /\ civic_work_days p = 0
    /\ jail_days p = 15 + 5 * ((-4 + 1) - 3)
    /\ creates_criminal_record p = true.
Proof.
  apply (calculatePenalty_negative_default (-4)). lia.
Defined.

(** C6: for every ordinal [n > 3], that is prior-citation count [n - 1],
    the calculator returns fine 0, course hours 0, civic-work days 0, jail
    days [15 + 5 * (n - 3)] and the record flag; and [calculatePenalty 5]
    has citation number 6 and 30 jail days. *)
Theorem calculatePenalty_beyond_third (n : Z) :
  3 < n ->
  (Penalty.fine_amount (calculatePenalty (n - 1)) = 0
   /\ civic_course_hours (calculatePenalty (n - 1)) = 0
   /\ civic_work_days (calculatePenalty (n - 1)) = 0
   /\ jail_days (calculatePenalty (n - 1)) = 15 + 5 * (n - 3)
   /\ creates_criminal_record (calculatePenalty (n - 1)) = true)
  /\ citation_number (calculatePenalty 5) = 6
  /\ jail_days (calculatePenalty 5) = 30.
Proof.
  intros Hn.
  split; [|split; reflexivity].
  rewrite calculatePenalty_default by lia.
  cbn [citation_number Penalty.fine_amount civic_course_hours civic_work_days
       jail_days creates_criminal_record].
  repeat split; lia.
Qed.

Lemma calculatePenalty_beyond_third_witness :
  (Penalty.fine_amount (calculatePenalty (4 - 1)) = 0
   /\ civic_course_hours (calculatePenalty (4 - 1)) = 0
   /\ civic_work_days (calculatePenalty (4 - 1)) = 0
   /\ jail_days (calculatePenalty (4 - 1)) = 15 + 5 * (4 - 3)
   /\ creates_criminal_record (calculatePenalty (4 - 1)) = true)
  /\ citation_number (calculatePenalty 5) = 6
  /\ jail_days (calculatePenalty 5) = 30.
Proof.
  apply (calculatePenalty_beyond_third 4). lia.
Defined.

(** C7: the first two rungs.  [calculatePenalty 0] is citation number 1,
    fine 400, 48 course hours, no work days, no jail, no record;
    [calculatePenalty 1] is citation number 2, fine 400, 48 course hours,
    2 work days, no jail, no record. *)
Theorem calculatePenalty_first_and_second :
  (citation_number (calculatePenalty 0) = 1
   /\ Penalty.fine_amount (calculatePenalty 0) = 400
   /\ civic_course_hours (calculatePenalty 0) = 48
   /\ civic_work_days (calculatePenalty 0) = 0
   /\ jail_days (calculatePenalty 0) = 0
   /\ creates_criminal_record (calculatePenalty 0) = false)
  /\ (citation_number (calculatePenalty 1) = 2
      /\ Penalty.fine_amount (calculatePenalty 1) = 400
      /\ civic_course_hours (calculatePenalty 1) = 48
      /\ civic_work_days (calculatePenalty 1) = 2
      /\ jail_days (calculatePenalty 1) = 0
      /\ creates_criminal_record (calculatePenalty 1) = false).
Proof.
  repeat split.
Qed.

(** C8: for every [n >= 2] the jail days at ordinal [n + 2] (prior count
    [n + 1]) exceed the jail days at ordinal [n + 1] (prior count [n]). *)
Theorem jail_days_strictly_increasing (n : Z) :
  2 <= n ->
  jail_days (calculatePenalty n) < jail_days (calculatePenalty (n + 1)).
Proof.
  intros Hn.
  rewrite (calculatePenalty_default (n + 1)) by lia.
  destruct (Z.eq_dec n 2) as [->|H2].
  - cbn [citation_number Penalty.fine_amount civic_course_hours civic_work_days
       jail_days creates_criminal_record].
    change (jail_days (calculatePenalty 2)) with 8. lia.
  - rewrite (calculatePenalty_default n) by lia.
    cbn [citation_number Penalty.fine_amount civic_course_hours civic_work_days
       jail_days creates_criminal_record].
    lia.
Qed.

Lemma jail_days_strictly_increasing_witness :
  jail_days (calculatePenalty 2) < jail_days (calculatePenalty (2 + 1)).
Proof.
  apply (jail_days_strictly_increasing 2). lia.
Defined.

(** ** The coordinator *)

Ltac unfold_engine_in H :=
  unfold createCitation, suspended, getCitationByIdDB, createCitationDB,
    checkCitizenExistsDB, countCitationsByCitizenDB,
    getConnection, beginTransaction, insert_citation, insert_criminal_record,
    commit, rollback, release, try_catch_finally, try_catch, round_trip, emit,
    modify, get, bind, ret, throw in H.

Ltac simp_in H :=
  cbn -[calculatePenalty string_of_Z Z.add automatic_description mem filter
        Nat.ltb count_citations app includes hd_error] in H.

Ltac simp_goal :=
  cbn -[calculatePenalty string_of_Z Z.add automatic_description mem filter
        Nat.ltb count_citations app includes hd_error].

(** One step of the run recorded in [H]: case on the next answer of
    storage or the next test of the code. *)
Ltac step_in H :=
  match type of H with
  | context [match faults ?e ?s with _ => _ end] =>
      destruct (faults e s) eqn:?
  | context [if negb ?b then _ else _] => destruct b eqn:?
  | context [if ?b then _ else _] => destruct b eqn:?
  end; simp_in H; try discriminate H.

Ltac run_in H := unfold_engine_in H; simp_in H; repeat step_in H.

(** A filing that throws has left the committed rows as they were. *)
Lemma createCitationDB_thrown_tables env data w e w' :
  createCitationDB env data w = (Thrown e, w') ->
  tables w' = tables w.
Proof.
  intros H. run_in H.
  all: injection H as <- <-; reflexivity.
Qed.

Lemma exists_query_absent (k : Z) (keys : list Z) :
  ~ In k keys ->
  (0 <? length (filter (Z.eqb k) keys))%nat = false.
Proof.
  induction keys as [|x keys IH]; intros Hk; [reflexivity|].
  cbn [filter].
  destruct (Z.eqb_spec k x) as [->|Hne].
  - exfalso. apply Hk. now left.
  - apply IH. intros Hin. apply Hk. now right.
Qed.

(** Every way out of a filing: the call throws, and all it has done is
    the existence query and, for a stored citizen, the count. *)
Lemma createCitationDB_exit env data w out w' :
  createCitationDB env data w = (out, w') ->
  (exists e, out = Thrown e)
  /\ tables w' = tables w
  /\ next_citation_id w' = next_citation_id w
  /\ next_record_id w' = next_record_id w
  /\ txn w' = txn w
  /\ borrowed w' = borrowed w
  /\ (trace w' = (trace w ++ [EQuery SExists])%list
      \/ trace w' = (trace w ++ [EQuery SExists; EQuery SCount])%list).
Proof.
  intros H. run_in H.
  all: injection H as <- <-.
  all: split; [eexists; reflexivity|].
  all: simp_goal; rewrite <- ?app_assoc; repeat split.
  all: first [left; reflexivity | right; reflexivity].
Qed.

(** C2 (at the failing input): citizen 7 exists and has two citations,
    so the calculated outcome raises [creates_criminal_record]; storage
    answers every call.  The filing throws the [TypeError] of
    [connection.getConnection()] after its two queries: no citation row and
    no criminal-record row is stored.  The same holds of every filing: the
    coordinator never returns and never changes a table. *)
Theorem third_filing_stores_nothing :
  (exists w',
     createCitationDB calm loud_music (world_with 2) =
       (Thrown (TypeError "connection.getConnection is not a function"), w')
     /\ creates_criminal_record
          (calculatePenalty
             (count_citations (citizen_id loud_music) (tables (world_with 2))))
        = true
     /\ citations (tables w') = citations (tables (world_with 2))
     /\ criminal_records (tables w') = []
     /\ trace w' = [EQuery SExists; EQuery SCount])
  /\ forall env data w,
       exists e w',
         createCitationDB env data w = (Thrown e, w')
         /\ tables w' = tables w.
Proof.
  split.
  - eexists. split; [vm_compute; reflexivity|].
    repeat split.
  - intros env data w.
    destruct (createCitationDB env data w) as [out w'] eqn:H.
    destruct (createCitationDB_exit _ _ _ _ _ H) as ((e & ->) & Htb & _).
    exists e, w'. split; [reflexivity | exact Htb].
Qed.



(** C4: when the citizen identifier is not the key of any citizen, the
    filing throws after the existence query and nothing else: no
    connection is acquired, no transaction is opened, no insert is
    attempted, and the tables are as before.  The error thrown is the
    not-found error whenever storage answers that query. *)
Theorem filing_unknown_citizen_not_found env data w :
  ~ In (citizen_id data) (citizens (tables w)) ->
  exists e w',
    createCitationDB env data w = (Thrown e, w')
    /\ (faults env SExists = None -> e = citizenNotFound)
    /\ tables w' = tables w
    /\ txn w' = txn w
    /\ borrowed w' = borrowed w
    /\ trace w' = (trace w ++ [EQuery SExists])%list.
Proof.
  intros Hnot.
  apply exists_query_absent in Hnot.
  unfold createCitationDB, checkCitizenExistsDB, round_trip, emit, modify,
    get, bind, ret, throw.
  simp_goal.
  destruct (faults env SExists) as [m|] eqn:F; simp_goal.
  - eexists. eexists. split; [reflexivity|].
    repeat split. discriminate.
  - rewrite Hnot. simp_goal.
    eexists. eexists. split; [reflexivity|].
    repeat split.
Qed.

Lemma filing_unknown_citizen_not_found_witness :
  exists e w',
    createCitationDB calm (mkCitationData 8 "ruido en la calle" None)
      (world_with 2) = (Thrown e, w')
    /\ (faults calm SExists = None -> e = citizenNotFound)
    /\ tables w' = tables (world_with 2)
    /\ txn w' = txn (world_with 2)
    /\ borrowed w' = borrowed (world_with 2)
    /\ trace w' = (trace (world_with 2) ++ [EQuery SExists])%list.
Proof.
  apply (filing_unknown_citizen_not_found calm
           (mkCitationData 8 "ruido en la calle" None) (world_with 2)).
  cbn. intros [H|[]]. discriminate H.
Defined.


(** ** The handler *)

Lemma bind_returned {A B : Type} (m : M A) (k : A -> M B) w b w' :
  bind m k w = (Returned b, w') ->
  exists a w1, m w = (Returned a, w1) /\ k a w1 = (Returned b, w').
Proof.
  unfold bind. destruct (m w) as [[a|e] w1]; intros H.
  - exists a, w1. split; [reflexivity | exact H].
  - discriminate H.
Qed.


(** * Further properties *)

(** ** The ladder over all counts *)

(** The outcome at a count that is not negative, rung by rung. *)
Lemma calculatePenalty_fields (n : Z) :
  0 <= n ->
  civic_course_hours (calculatePenalty n) = (if Z.ltb n 2 then 48 else 0)
  /\ civic_work_days (calculatePenalty n) = (if Z.eqb n 1 then 2 else 0)
  /\ jail_days (calculatePenalty n) =
       (if Z.ltb n 2 then 0 else if Z.eqb n 2 then 8 else 15 + (n - 2) * 5).
Proof.
  intros Hn.
  destruct (Z.eq_dec n 0) as [->|H0]; [repeat split|].
  destruct (Z.eq_dec n 1) as [->|H1]; [repeat split|].
  destruct (Z.eq_dec n 2) as [->|H2]; [repeat split|].
  rewrite calculatePenalty_default by assumption.
  cbn [civic_course_hours civic_work_days jail_days].
  destruct (Z.ltb_spec n 2); [lia|].
  destruct (Z.eqb_spec n 1); [lia|].
  destruct (Z.eqb_spec n 2); [lia|].
  repeat split. lia.
Qed.

(** X1: at every count that is not negative no amount of the outcome is
    negative, and jail days are imposed exactly when a criminal record is
    created. *)
Theorem jail_exactly_with_record (n : Z) :
  0 <= n ->
  0 <= Penalty.fine_amount (calculatePenalty n)
  /\ 0 <= civic_course_hours (calculatePenalty n)
  /\ 0 <= civic_work_days (calculatePenalty n)
  /\ 0 <= jail_days (calculatePenalty n)
  /\ (0 < jail_days (calculatePenalty n)
      <-> creates_criminal_record (calculatePenalty n) = true).
Proof.
  intros Hn.
  destruct (calculatePenalty_fields n Hn) as (Hc & Hw & Hj).
  rewrite Hc, Hw, Hj, creates_criminal_record_iff by assumption.
  assert (Hf : 0 <= Penalty.fine_amount (calculatePenalty n)).
  { destruct (Z.eq_dec n 0) as [->|H0]; [cbn; lia|].
    destruct (Z.eq_dec n 1) as [->|H1]; [cbn; lia|].
    destruct (Z.eq_dec n 2) as [->|H2]; [cbn; lia|].
    rewrite calculatePenalty_default by assumption. cbn. lia. }
  split; [exact Hf|].
  destruct (Z.ltb_spec n 2), (Z.eqb_spec n 1), (Z.eqb_spec n 2),
    (Z.leb_spec 3 (n + 1)); repeat split; try lia; try discriminate;
    intros; try lia; try reflexivity.
Qed.

Lemma jail_exactly_with_record_witness :
  0 <= Penalty.fine_amount (calculatePenalty 3)
  /\ 0 <= civic_course_hours (calculatePenalty 3)
  /\ 0 <= civic_work_days (calculatePenalty 3)
  /\ 0 <= jail_days (calculatePenalty 3)
  /\ (0 < jail_days (calculatePenalty 3)
      <-> creates_criminal_record (calculatePenalty 3) = true).
Proof.
  apply (jail_exactly_with_record 3). lia.
Defined.

(** X2: the course is imposed (48 hours) on the first two citations only
    and civic work (2 days) on the second only. *)
Theorem course_and_work_by_ordinal (n : Z) :
  0 <= n ->
  (civic_course_hours (calculatePenalty n) = 48 <-> n + 1 <= 2)
  /\ (civic_course_hours (calculatePenalty n) = 0 <-> 3 <= n + 1)
  /\ (civic_work_days (calculatePenalty n) = 2 <-> n + 1 = 2)
  /\ (civic_work_days (calculatePenalty n) = 0 <-> n + 1 <> 2).
Proof.
  intros Hn.
  destruct (calculatePenalty_fields n Hn) as (Hc & Hw & _).
  rewrite Hc, Hw.
  destruct (Z.ltb_spec n 2), (Z.eqb_spec n 1); repeat split; intros;
    try lia; try discriminate.
Qed.

Lemma course_and_work_by_ordinal_witness :
  (civic_course_hours (calculatePenalty 1) = 48 <-> 1 + 1 <= 2)
  /\ (civic_course_hours (calculatePenalty 1) = 0 <-> 3 <= 1 + 1)
  /\ (civic_work_days (calculatePenalty 1) = 2 <-> 1 + 1 = 2)
  /\ (civic_work_days (calculatePenalty 1) = 0 <-> 1 + 1 <> 2).
Proof.
  apply (course_and_work_by_ordinal 1). lia.
Defined.

(** X3: over the counts that are not negative the jail days never
    decrease as the count grows. *)
Theorem jail_days_monotone (n m : Z) :
  0 <= n -> n <= m ->
  jail_days (calculatePenalty n) <= jail_days (calculatePenalty m).
Proof.
  intros Hn Hm.
  destruct (calculatePenalty_fields n Hn) as (_ & _ & ->).
  destruct (calculatePenalty_fields m ltac:(lia)) as (_ & _ & ->).
  destruct (Z.ltb_spec n 2), (Z.ltb_spec m 2), (Z.eqb_spec n 2),
    (Z.eqb_spec m 2); lia.
Qed.

Lemma jail_days_monotone_witness :
  jail_days (calculatePenalty 1) <= jail_days (calculatePenalty 6).
Proof.
  apply (jail_days_monotone 1 6); lia.
Defined.

(** X4: from the fourth citation on every further citation adds exactly
    5 jail days, while the step from the third citation to the fourth is
    12 days (8 to 20): the formula of the [default] branch does not
    continue the third rung. *)
Theorem jail_days_step (n : Z) :
  3 <= n ->
  jail_days (calculatePenalty (n + 1)) = jail_days (calculatePenalty n) + 5
  /\ jail_days (calculatePenalty 3) = jail_days (calculatePenalty 2) + 12.
Proof.
  intros Hn.
  split; [|reflexivity].
  rewrite !calculatePenalty_default by lia.
  cbn [jail_days]. lia.
Qed.

Lemma jail_days_step_witness :
  jail_days (calculatePenalty (3 + 1)) = jail_days (calculatePenalty 3) + 5
  /\ jail_days (calculatePenalty 3) = jail_days (calculatePenalty 2) + 12.
Proof.
  apply (jail_days_step 3). lia.
Defined.

(** ** The coordinator over all runs *)

(** X5: a filing that throws, whatever was rejected and wherever,
    leaves every stored row as it was: the tables after the call are the
    tables before it. *)
Theorem failed_filing_changes_no_row env data w e w' :
  createCitationDB env data w = (Thrown e, w') ->
  tables w' = tables w.
Proof.
  apply createCitationDB_thrown_tables.
Qed.

Lemma failed_filing_changes_no_row_witness :
  tables (snd (createCitationDB (failing SCommit "Deadlock found")
                 loud_music (world_with 2)))
  = tables (world_with 2).
Proof.
  apply (failed_filing_changes_no_row (failing SCommit "Deadlock found")
           loud_music (world_with 2)
           (TypeError "connection.getConnection is not a function")).
  vm_compute. reflexivity.
Defined.

(** X6: a filing never touches [citizens] or [planets], never removes or
    alters a stored citation or criminal record, and appends at most one
    row to each table, both for the citizen of the request. *)
Theorem filing_only_appends env data w out w' :
  createCitationDB env data w = (out, w') ->
  citizens (tables w') = citizens (tables w)
  /\ planets (tables w') = planets (tables w)
  /\ exists (cs : list Citation.t) (rs : list CriminalRecord.t),
       citations (tables w') = (citations (tables w) ++ cs)%list
       /\ criminal_records (tables w') = (criminal_records (tables w) ++ rs)%list
       /\ (length rs <= length cs <= 1)%nat
       /\ (forall c, In c cs -> Citation.citizen_id c = citizen_id data)
       /\ (forall r, In r rs -> CriminalRecord.citizen_id r = citizen_id data).
Proof.
  intros H.
  apply createCitationDB_exit in H as (_ & Htb & _).
  rewrite Htb.
  split; [reflexivity|]. split; [reflexivity|].
  exists [], []. rewrite !app_nil_r.
  repeat split; try (cbn; lia); intros ? [].
Qed.

Lemma filing_only_appends_witness :
  citizens (tables (snd (createCitationDB calm loud_music (world_with 2)))) =
    citizens (tables (world_with 2))
  /\ planets (tables (snd (createCitationDB calm loud_music (world_with 2)))) =
       planets (tables (world_with 2))
  /\ exists (cs : list Citation.t) (rs : list CriminalRecord.t),
       citations (tables (snd (createCitationDB calm loud_music
                                 (world_with 2)))) =
         (citations (tables (world_with 2)) ++ cs)%list
       /\ criminal_records (tables (snd (createCitationDB calm loud_music
                                           (world_with 2)))) =
            (criminal_records (tables (world_with 2)) ++ rs)%list
       /\ (length rs <= length cs <= 1)%nat
       /\ (forall c, In c cs -> Citation.citizen_id c = citizen_id loud_music)
       /\ (forall r, In r rs ->
             CriminalRecord.citizen_id r = citizen_id loud_music).
Proof.
  apply (filing_only_appends calm loud_music (world_with 2)
           (Thrown (TypeError "connection.getConnection is not a function"))).
  vm_compute. reflexivity.
Defined.

(** X7: if every stored key is below the counter of its table, the same
    holds after a filing, however it ends: a filing never hands out a key
    that is already stored. *)
Theorem filing_keeps_keys_fresh env data w out w' :
  fresh_keys w = true ->
  createCitationDB env data w = (out, w') ->
  fresh_keys w' = true.
Proof.
  unfold fresh_keys. intros Hf H.
  apply createCitationDB_exit in H as (_ & Htb & Hn1 & Hn2 & _).
  now rewrite Htb, Hn1, Hn2.
Qed.

Lemma filing_keeps_keys_fresh_witness :
  fresh_keys (snd (createCitationDB calm loud_music (world_with 2))) = true.
Proof.
  apply (filing_keeps_keys_fresh calm loud_music (world_with 2)
           (Thrown (TypeError "connection.getConnection is not a function")));
    [reflexivity | vm_compute; reflexivity].
Defined.

Ltac unfold_engine :=
  unfold createCitation, suspended, getCitationByIdDB, createCitationDB,
    checkCitizenExistsDB, countCitationsByCitizenDB,
    getConnection, beginTransaction, insert_citation, insert_criminal_record,
    commit, rollback, release, try_catch_finally, try_catch, round_trip, emit,
    modify, get, bind, ret, throw.

(** Runs the code forward along the answers recorded in the context. *)
Ltac forward :=
  repeat (simp_goal;
          match goal with
          | H : faults _ _ = _ |- _ => rewrite H
          | H : mem _ _ = _ |- _ => rewrite H
          | H : creates_criminal_record _ = _ |- _ => rewrite H
          | H : (_ <? _)%nat = _ |- _ => rewrite H
          | H : includes _ _ = _ |- _ => rewrite H
          end);
  simp_goal.

(** X9: if the foreign keys of the schema hold in the stored rows
    (every citation and record names a stored citizen, every record a
    stored planet), they hold after a filing, however it ends. *)
Theorem filing_keeps_references env data w out w' :
  references_hold (tables w) = true ->
  createCitationDB env data w = (out, w') ->
  references_hold (tables w') = true.
Proof.
  intros Href H.
  apply createCitationDB_exit in H as (_ & Htb & _).
  now rewrite Htb.
Qed.

Lemma filing_keeps_references_witness :
  references_hold
    (tables (snd (createCitationDB calm loud_music (world_with 2)))) = true.
Proof.
  apply (filing_keeps_references calm loud_music (world_with 2)
           (Thrown (TypeError "connection.getConnection is not a function")));
    [reflexivity | vm_compute; reflexivity].
Defined.

(** X15: a filing for one citizen leaves the citations and criminal
    records of every other citizen as they were, so their next ordinal
    does not move. *)
Theorem filing_leaves_other_citizens env data w out w' (other : Z) :
  other <> citizen_id data ->
  createCitationDB env data w = (out, w') ->
  citations_of other (tables w') = citations_of other (tables w)
  /\ records_of other (tables w') = records_of other (tables w)
  /\ calculatePenalty (count_citations other (tables w')) =
       calculatePenalty (count_citations other (tables w)).
Proof.
  intros Hne H.
  apply createCitationDB_exit in H as (_ & Htb & _).
  rewrite Htb. repeat split.
Qed.

Lemma filing_leaves_other_citizens_witness :
  citations_of 9
    (tables (snd (createCitationDB calm loud_music (world_with 2)))) =
    citations_of 9 (tables (world_with 2))
  /\ records_of 9
       (tables (snd (createCitationDB calm loud_music (world_with 2)))) =
       records_of 9 (tables (world_with 2))
  /\ calculatePenalty
       (count_citations 9
          (tables (snd (createCitationDB calm loud_music (world_with 2))))) =
     calculatePenalty (count_citations 9 (tables (world_with 2))).
Proof.
  apply (filing_leaves_other_citizens calm loud_music (world_with 2)
           (Thrown (TypeError "connection.getConnection is not a function")));
    [discriminate | vm_compute; reflexivity].
Defined.

Lemma exists_query_present (k : Z) (keys : list Z) :
  In k keys ->
  (0 <? length (filter (Z.eqb k) keys))%nat = true.
Proof.
  intros Hin. apply Nat.ltb_lt.
  induction keys as [|x keys IH]; [destruct Hin|].
  cbn [filter]. destruct (Z.eqb_spec k x) as [E|E].
  - cbn. lia.
  - apply IH. destruct Hin as [->|Hin]; [congruence | exact Hin].
Qed.

(** X30: for every stored citizen, when the existence query and the
    count are answered, the filing throws the [TypeError] of
    [connection.getConnection()]: the two queries are all it has asked of
    storage, and no table has changed. *)
Theorem filing_for_stored_citizen_throws_type_error env data w :
  faults env SExists = None ->
  faults env SCount = None ->
  In (citizen_id data) (citizens (tables w)) ->
  exists w',
    createCitationDB env data w =
      (Thrown (TypeError "connection.getConnection is not a function"), w')
    /\ tables w' = tables w
    /\ borrowed w' = borrowed w
    /\ trace w' = (trace w ++ [EQuery SExists; EQuery SCount])%list.
Proof.
  intros F1 F2 Hin.
  pose proof (exists_query_present _ _ Hin) as Hex.
  eexists. unfold_engine. forward.
  split; [reflexivity|]. simp_goal.
  rewrite <- app_assoc. repeat split.
Qed.

Lemma filing_for_stored_citizen_throws_type_error_witness :
  exists w',
    createCitationDB calm loud_music (world_with 0) =
      (Thrown (TypeError "connection.getConnection is not a function"), w')
    /\ tables w' = tables (world_with 0)
    /\ borrowed w' = borrowed (world_with 0)
    /\ trace w' = (trace (world_with 0) ++ [EQuery SExists; EQuery SCount])%list.
Proof.
  apply (filing_for_stored_citizen_throws_type_error calm loud_music
           (world_with 0)); try reflexivity.
  left. reflexivity.
Defined.

(** ** The handler over all runs *)

(** X16: [createCitation] answers every request: whatever storage does,
    the handler returns a response and never throws.  A success body
    comes with status 202 when a criminal record was created and 201
    otherwise; a failure body comes with status 400 or 500. *)
Theorem createCitation_always_responds env req w :
  exists resp w',
    createCitation env req w = (Returned resp, w')
    /\ match body resp with
       | Created _ _ aa =>
           status resp = (if aa_criminal_record_created aa then 202 else 201)
       | Failed _ _ => status resp = 400 \/ status resp = 500
       end.
Proof.
  unfold createCitation, try_catch.
  match goal with
  | |- context [match ?b w with _ => _ end] =>
      destruct (b w) as [[resp|e] wb] eqn:Hbody
  end.
  - exists resp, wb. split; [reflexivity|].
    apply bind_returned in Hbody as (n & wc & _ & Hbody).
    apply bind_returned in Hbody as ([] & w0 & _ & Hbody).
    apply bind_returned in Hbody as (r & w1 & _ & Hbody).
    apply bind_returned in Hbody as (fetched & w2 & _ & Hbody).
    destruct fetched as [row|]; [|discriminate Hbody].
    unfold ret in Hbody. injection Hbody as <- <-.
    cbn [body status aa_criminal_record_created]. reflexivity.
  - destruct (includes (message e) "no existe");
      eexists; eexists; (split; [reflexivity|]); cbn [body status];
      [left | right]; reflexivity.
Qed.

(** X17: a request for an identifier that is no longer the key of a
    citizen when the coordinator checks it is answered with status 400 and
    the message of the not-found error; nothing is stored and no
    connection is borrowed. *)
Theorem createCitation_unknown_citizen_400 env req w :
  faults env SCtlCount = None ->
  faults env SExists = None ->
  ~ In (param_citizenId req) (citizens (concurrent env (tables w))) ->
  exists w',
    createCitation env req w =
      (Returned {| status := 400;
                   body := Failed "El ciudadano especificado no existe" None |},
       w')
    /\ tables w' = concurrent env (tables w)
    /\ borrowed w' = borrowed w.
Proof.
  intros F1 F2 Hnot.
  apply exists_query_absent in Hnot.
  assert (Hinc : includes "El ciudadano especificado no existe" "no existe"
                 = true) by reflexivity.
  eexists. unfold_engine. unfold parseInt, citizenNotFound. forward.
  split; [reflexivity|]. simp_goal. split; reflexivity.
Qed.

Lemma createCitation_unknown_citizen_400_witness :
  exists w',
    createCitation calm (mkRequest 8 (mkCitationData 8 "ruido en la calle" None))
      (world_with 2) =
      (Returned {| status := 400;
                   body := Failed "El ciudadano especificado no existe" None |},
       w')
    /\ tables w' = concurrent calm (tables (world_with 2))
    /\ borrowed w' = borrowed (world_with 2).
Proof.
  apply (createCitation_unknown_citizen_400 calm
           (mkRequest 8 (mkCitationData 8 "ruido en la calle" None))
           (world_with 2)); try reflexivity.
  intros [H|[]]. discriminate H.
Defined.

(** X31: for every citizen that is stored when the coordinator checks,
    when the handler's count and the coordinator's two queries are
    answered, [createCitation] responds 500 with the message of the
    [TypeError] of [connection.getConnection()]; nothing is stored. *)
Theorem createCitation_stored_citizen_500 env req w :
  faults env SCtlCount = None ->
  faults env SExists = None ->
  faults env SCount = None ->
  In (param_citizenId req) (citizens (concurrent env (tables w))) ->
  exists w',
    createCitation env req w =
      (Returned
         {| status := 500;
            body :=
              Failed "Error interno del servidor al crear la citación"
                     (Some "connection.getConnection is not a function") |},
       w')
    /\ tables w' = concurrent env (tables w)
    /\ borrowed w' = borrowed w.
Proof.
  intros F1 F2 F3 Hin.
  pose proof (exists_query_present _ _ Hin) as Hex.
  assert (Hinc : includes "connection.getConnection is not a function"
                          "no existe" = false) by reflexivity.
  eexists. unfold_engine. unfold parseInt. forward.
  split; [reflexivity|]. simp_goal. split; reflexivity.
Qed.

Lemma createCitation_stored_citizen_500_witness :
  exists w',
    createCitation calm (mkRequest 7 loud_music) (world_with 1) =
      (Returned
         {| status := 500;
            body :=
              Failed "Error interno del servidor al crear la citación"
                     (Some "connection.getConnection is not a function") |},
       w')
    /\ tables w' = concurrent calm (tables (world_with 1))
    /\ borrowed w' = borrowed (world_with 1).
Proof.
  apply (createCitation_stored_citizen_500 calm (mkRequest 7 loud_music)
           (world_with 1)); try reflexivity.
  left. reflexivity.
Defined.

(** ** The penalty summary *)

Ltac unfold_read_side :=
  unfold getCitizenPenaltySummary, getCitizenPenaltySummaryDB, deleteCitation,
    deleteCitationDB, getCitationByIdDB, countCitationsByCitizenDB, try_catch,
    round_trip, emit, modify, get, bind, ret, throw.

Ltac unfold_read_side_in H :=
  unfold getCitizenPenaltySummary, getCitizenPenaltySummaryDB, deleteCitation,
    deleteCitationDB, getCitationByIdDB, countCitationsByCitizenDB, try_catch,
    round_trip, emit, modify, get, bind, ret, throw in H.

Ltac simp_read_in H :=
  cbn -[calculatePenalty string_of_Z Z.add mem filter count_citations app
        sum_fines or_zero Z.leb Z.ltb Z.eqb Z.of_nat hd_error] in H.

Ltac simp_read :=
  cbn -[calculatePenalty string_of_Z Z.add mem filter count_citations app
        sum_fines or_zero Z.leb Z.ltb Z.eqb Z.of_nat hd_error].

Ltac step_read_in H :=
  match type of H with
  | context [match faults ?e ?s with _ => _ end] =>
      destruct (faults e s) eqn:?
  end; simp_read_in H; try discriminate H.

Lemma getCitizenPenaltySummaryDB_returned env cs ss k w s w' :
  getCitizenPenaltySummaryDB env cs ss k w = (Returned s, w') ->
  s = {| total_citations := count_citations k (tables w);
         total_fines := or_zero (sum_fines k (tables w));
         next_penalty := calculatePenalty (count_citations k (tables w)) |}
  /\ tables w' = tables w.
Proof.
  intros H. unfold_read_side_in H. simp_read_in H.
  repeat step_read_in H.
  injection H as <- <-. split; reflexivity.
Qed.

(** X19: in every success response of the penalty summary the warning
    that the next citation brings a criminal record is present exactly
    when the penalty the response shows for the next citation creates one,
    and the notice of previous citations exactly when the citizen has
    any; the summary stores nothing. *)
Theorem summary_warning_matches_next_penalty env cs ss k w d w' :
  getCitizenPenaltySummary env cs ss k w =
    (Returned {| code := 200; payload := Data d |}, w') ->
  (approaching_criminal_record (sd_warnings d) <> None
   <-> creates_criminal_record (sd_next_citation_penalty d) = true)
  /\ (escalation_notice (sd_warnings d) <> None <-> 0 < sd_total_citations d)
  /\ sd_next_citation_penalty d = calculatePenalty (sd_total_citations d)
  /\ sd_total_citations d = count_citations k (tables w)
  /\ tables w' = tables w.
Proof.
  intros H.
  unfold getCitizenPenaltySummary, try_catch in H.
  match type of H with
  | (match ?b w with _ => _ end) = _ =>
      destruct (b w) as [[resp|e] wb] eqn:Hbody
  end.
  2:{ unfold ret in H. discriminate H. }
  injection H as -> ->.
  apply bind_returned in Hbody as (s & w1 & Hs & Hret).
  apply getCitizenPenaltySummaryDB_returned in Hs as [-> Htb].
  unfold ret in Hret. injection Hret as <- <-.
  cbn [sd_warnings approaching_criminal_record escalation_notice
       sd_next_citation_penalty sd_total_citations total_citations
       next_penalty].
  rewrite creates_criminal_record_iff
    by (unfold count_citations; lia).
  repeat split; try assumption.
  - destruct (Z.leb_spec 2 (count_citations k (tables w))),
      (Z.leb_spec 3 (count_citations k (tables w) + 1));
      intros; try lia; try reflexivity; congruence.
  - destruct (Z.leb_spec 2 (count_citations k (tables w))),
      (Z.leb_spec 3 (count_citations k (tables w) + 1));
      intros; try lia; try discriminate; congruence.
  - destruct (Z.ltb_spec 0 (count_citations k (tables w)));
      intros; try lia; congruence.
  - destruct (Z.ltb_spec 0 (count_citations k (tables w)));
      intros; try lia; discriminate.
Qed.

Lemma summary_warning_matches_next_penalty_witness :
  exists d w',
    getCitizenPenaltySummary calm SCtlCount SCtlFetch 7 (world_with 2) =
      (Returned {| code := 200; payload := Data d |}, w')
    /\ (approaching_criminal_record (sd_warnings d) <> None
        <-> creates_criminal_record (sd_next_citation_penalty d) = true)
    /\ sd_total_citations d = 2.
Proof.
  assert (H : getCitizenPenaltySummary calm SCtlCount SCtlFetch 7
                (world_with 2)
              = (Returned
                   {| code := 200;
                      payload :=
                        Data
                          (mkSummaryData 7 2 800 (calculatePenalty 2)
                             (mkSummaryWarnings
                                (Some "ADVERTENCIA: La próxima citación resultará en antecedentes penales")
                                (Some "El ciudadano tiene 2 citación(es) previa(s)"))) |},
                 snd (getCitizenPenaltySummary calm SCtlCount SCtlFetch 7
                        (world_with 2))))
    by (vm_compute; reflexivity).
  destruct (summary_warning_matches_next_penalty _ _ _ _ _ _ _ H)
    as (Hw & _ & _ & _ & _).
  eexists. eexists. split; [exact H|]. split; [exact Hw | reflexivity].
Defined.

(** X22: for a citizen without citations the sum of fines is [NULL] and
    the summary reports 0 for it; the response shows no citation, no
    fine, the first rung as the next penalty and no warning. *)
Theorem summary_of_citizen_without_citations env cs ss k w :
  faults env cs = None ->
  faults env ss = None ->
  citations_of k (tables w) = [] ->
  exists w',
    getCitizenPenaltySummary env cs ss k w =
      (Returned
         {| code := 200;
            payload :=
              Data
                {| sd_citizen_id := k;
                   sd_total_citations := 0;
                   sd_total_fines := 0;
                   sd_next_citation_penalty := calculatePenalty 0;
                   sd_warnings :=
                     {| approaching_criminal_record := None;
                        escalation_notice := None |} |} |},
       w')
    /\ sum_fines k (tables w) = None
    /\ tables w' = tables w.
Proof.
  intros F1 F2 Hnone.
  assert (Hsum : sum_fines k (tables w) = None)
    by (unfold sum_fines; now rewrite Hnone).
  assert (Hcount : count_citations k (tables w) = 0)
    by (unfold count_citations; now rewrite Hnone).
  eexists. unfold_read_side. simp_read. rewrite F1. simp_read.
  rewrite F2. simp_read. rewrite Hsum, Hcount. unfold parseInt.
  split; [reflexivity|]. split; reflexivity.
Qed.

Lemma summary_of_citizen_without_citations_witness :
  exists w',
    getCitizenPenaltySummary calm SCtlCount SCtlFetch 7 (world_with 0) =
      (Returned
         {| code := 200;
            payload :=
              Data
                {| sd_citizen_id := 7;
                   sd_total_citations := 0;
                   sd_total_fines := 0;
                   sd_next_citation_penalty := calculatePenalty 0;
                   sd_warnings :=
                     {| approaching_criminal_record := None;
                        escalation_notice := None |} |} |},
       w')
    /\ sum_fines 7 (tables (world_with 0)) = None
    /\ tables w' = tables (world_with 0).
Proof.
  apply (summary_of_citizen_without_citations calm SCtlCount SCtlFetch 7
           (world_with 0)); reflexivity.
Defined.

(** ** Deleting a citation *)

Lemma deleteCitationDB_returned env site k w n w' :
  deleteCitationDB env site k w = (Returned n, w') ->
  n = Z.of_nat (length (filter (fun c => Z.eqb (Citation.id c) k)
                               (citations (tables w))))
  /\ tables w' =
       mkTables (citizens (tables w)) (planets (tables w))
         (filter (fun c => negb (Z.eqb (Citation.id c) k))
                 (citations (tables w)))
         (criminal_records (tables w)).
Proof.
  intros H. unfold_read_side_in H. simp_read_in H.
  repeat step_read_in H.
  injection H as <- <-. split; reflexivity.
Qed.

Lemma filter_split_length {A : Type} (p : A -> bool) (l : list A) :
  (length (filter p l) + length (filter (fun x => negb (p x)) l))%nat
  = length l.
Proof.
  induction l as [|x l IH]; [reflexivity|].
  cbn [filter]. destruct (p x); cbn [negb length]; lia.
Qed.

Lemma filter_key_after_delete (k : Z) (keep : Citation.t -> bool)
    (rows : list Citation.t) :
  filter (fun c => Z.eqb (Citation.id c) k && keep c)
         (filter (fun c => negb (Z.eqb (Citation.id c) k)) rows) = [].
Proof.
  induction rows as [|c rows IH]; [reflexivity|].
  cbn [filter]. destruct (Z.eqb (Citation.id c) k) eqn:E; cbn [negb].
  - exact IH.
  - cbn [filter]. rewrite E. cbn [andb]. exact IH.
Qed.

(** X23: delete then fetch.  [deleteCitationDB] removes the rows with
    the given key and only those, reports how many they were, and leaves
    citizens, planets and criminal records alone; a fetch of that key
    afterwards finds nothing. *)
Theorem deleted_citation_is_gone env env' site k w n w' :
  faults env' SCtlFetch = None ->
  deleteCitationDB env site k w = (Returned n, w') ->
  n = Z.of_nat (length (citations (tables w)))
      - Z.of_nat (length (citations (tables w')))
  /\ (forall c, In c (citations (tables w')) <->
                In c (citations (tables w)) /\ Citation.id c <> k)
  /\ criminal_records (tables w') = criminal_records (tables w)
  /\ citizens (tables w') = citizens (tables w)
  /\ planets (tables w') = planets (tables w)
  /\ exists w'',
       getCitationByIdDB env' k w' = (Returned None, w'')
       /\ tables w'' = tables w'.
Proof.
  intros Hfetch H.
  apply deleteCitationDB_returned in H as [-> Htb].
  rewrite Htb. cbn [citations criminal_records citizens planets].
  split.
  { pose proof (filter_split_length
                  (fun c => Z.eqb (Citation.id c) k) (citations (tables w))).
    lia. }
  split.
  { intros c. rewrite filter_In. split; intros [Hin Hk]; split; try assumption.
    - apply negb_true_iff in Hk. now apply Z.eqb_neq in Hk.
    - apply negb_true_iff. now apply Z.eqb_neq. }
  repeat split.
  eexists. unfold_read_side. simp_read. rewrite Hfetch. simp_read.
  rewrite Htb. cbn [citations citizens].
  rewrite filter_key_after_delete. split; reflexivity.
Qed.

Lemma deleted_citation_is_gone_witness :
  exists w'',
    getCitationByIdDB calm 2
      (snd (deleteCitationDB calm SCtlFetch 2 (world_with 2)))
    = (Returned None, w'')
    /\ tables w'' = tables (snd (deleteCitationDB calm SCtlFetch 2 (world_with 2))).
Proof.
  assert (H : deleteCitationDB calm SCtlFetch 2 (world_with 2)
              = (Returned 1,
                 snd (deleteCitationDB calm SCtlFetch 2 (world_with 2))))
    by (vm_compute; reflexivity).
  destruct (deleted_citation_is_gone calm calm SCtlFetch 2 (world_with 2) _ _
              eq_refl H) as (_ & _ & _ & _ & _ & Hgone).
  exact Hgone.
Defined.

(** X25: [deleteCitation] for a key that no stored citation has answers
    404 and leaves the tables as they were: the [DELETE] statement is never
    issued, the only storage call is the fetch. *)
Theorem deleteCitation_unknown_404 env site k w :
  faults env SCtlFetch = None ->
  (forall c, In c (citations (tables w)) -> Citation.id c <> k) ->
  exists w',
    deleteCitation env site k w =
      (Returned {| code := 404;
                   payload := Fault "Citación no encontrada" None |}, w')
    /\ tables w' = tables w
    /\ trace w' = (trace w ++ [EQuery SCtlFetch])%list.
Proof.
  intros F Hnone.
  assert (Hrows : filter (fun c => Z.eqb (Citation.id c) k
                                   && mem (Citation.citizen_id c)
                                          (citizens (tables w)))
                         (citations (tables w)) = []).
  { induction (citations (tables w)) as [|c rows IH]; [reflexivity|].
    cbn [filter].
    destruct (Z.eqb_spec (Citation.id c) k) as [E|_].
    - exfalso. apply (Hnone c); [now left | exact E].
    - cbn [andb]. apply IH. intros c' Hin. apply Hnone. now right. }
  eexists. unfold_read_side. simp_read. rewrite F. simp_read.
  rewrite Hrows. cbn [hd_error]. split; [reflexivity|].
  split; reflexivity.
Qed.

Lemma deleteCitation_unknown_404_witness :
  exists w',
    deleteCitation calm SCount 99 (world_with 2) =
      (Returned {| code := 404;
                   payload := Fault "Citación no encontrada" None |}, w')
    /\ tables w' = tables (world_with 2)
    /\ trace w' = (trace (world_with 2) ++ [EQuery SCtlFetch])%list.
Proof.
  apply (deleteCitation_unknown_404 calm SCount 99 (world_with 2));
    [reflexivity|].
  intros c [<-|[<-|[]]]; discriminate.
Defined.

(** ** The statements of listing and search *)


Lemma placeholders_app (a b : string) :
  placeholders (a ++ b) = (placeholders a + placeholders b)%nat.
Proof.
  induction a as [|c a IH]; [reflexivity|].
  cbn [append placeholders]. rewrite IH. lia.
Qed.

(** A pair is balanced when its text has one placeholder for each of
    its parameters. *)
Lemma add_when_balanced {V : Type} (c : bool) (text : string) (vs : list V)
    (acc : string * list V) :
  placeholders text = length vs ->
  placeholders (fst acc) = length (snd acc) ->
  placeholders (fst (add_when c text vs acc)) =
  length (snd (add_when c text vs acc)).
Proof.
  intros Ht Hacc. unfold add_when. destruct c; [|exact Hacc].
  cbn [fst snd]. rewrite placeholders_app, length_app. lia.
Qed.

Lemma paginate_balanced {V : Type} `{JsValues V} (limit offset : V)
    (acc : string * list V) :
  placeholders (fst acc) = length (snd acc) ->
  placeholders (fst (paginate limit offset acc)) =
  length (snd (paginate limit offset acc)).
Proof.
  intros Hacc. unfold paginate. destruct (js_truthy limit); [|exact Hacc].
  apply add_when_balanced; [reflexivity|].
  cbn [fst snd]. rewrite placeholders_app, length_app. cbn. lia.
Qed.

Lemma order_by_balanced {V : Type} (acc : string * list V) :
  placeholders (fst acc) = length (snd acc) ->
  placeholders (fst (fst acc ++ " ORDER BY ct.date DESC", snd acc)) =
  length (snd (fst acc ++ " ORDER BY ct.date DESC", snd acc)).
Proof.
  intros Hacc. cbn [fst snd]. rewrite placeholders_app, Hacc.
  cbn. lia.
Qed.

Lemma add_when_text {V : Type} (c1 c2 : bool) (text : string)
    (vs1 vs2 : list V) (acc1 acc2 : string * list V) :
  c1 = c2 ->
  fst acc1 = fst acc2 ->
  fst (add_when c1 text vs1 acc1) = fst (add_when c2 text vs2 acc2).
Proof.
  intros -> Hacc. unfold add_when. destruct c2; [|exact Hacc].
  cbn [fst]. now rewrite Hacc.
Qed.

Lemma paginate_text {V : Type} `{JsValues V} (l1 o1 l2 o2 : V)
    (acc1 acc2 : string * list V) :
  js_truthy l1 = js_truthy l2 ->
  js_truthy o1 = js_truthy o2 ->
  fst acc1 = fst acc2 ->
  fst (paginate l1 o1 acc1) = fst (paginate l2 o2 acc2).
Proof.
  intros Hl Ho Hacc. unfold paginate. rewrite Hl.
  destruct (js_truthy l2); [|exact Hacc].
  apply add_when_text; [exact Ho|]. cbn [fst]. now rewrite Hacc.
Qed.

(** X26: the statement [getAllCitationsDB] hands to storage has exactly
    one [?] placeholder for each parameter it passes along, whatever
    filters the request carried. *)
Theorem getAllCitationsDB_placeholders_match
    (V : Type) (ops : JsValues V) (filters : Filters V) :
  placeholders (fst (getAllCitationsDB_statement filters)) =
  length (snd (getAllCitationsDB_statement filters)).
Proof.
  unfold getAllCitationsDB_statement.
  apply paginate_balanced, order_by_balanced.
  repeat (apply add_when_balanced; [reflexivity|]).
  reflexivity.
Qed.

(** X27: the statement [searchCitationsDB] hands to storage has exactly
    one [?] placeholder for each parameter it passes along; the search
    term is passed three times and the citizen name twice. *)
Theorem searchCitationsDB_placeholders_match
    (V : Type) (ops : JsValues V) (criteria : SearchCriteria V) :
  placeholders (fst (searchCitationsDB_statement criteria)) =
  length (snd (searchCitationsDB_statement criteria))
  /\ (js_truthy (s_term criteria) = true ->
      js_truthy (s_citizen_name criteria) = true ->
      firstn 5 (snd (searchCitationsDB_statement criteria)) =
        [js_wildcard (s_term criteria); js_wildcard (s_term criteria);
         js_wildcard (s_term criteria);
         js_wildcard (s_citizen_name criteria);
         js_wildcard (s_citizen_name criteria)]).
Proof.
  split.
  - unfold searchCitationsDB_statement.
    apply paginate_balanced, order_by_balanced.
    repeat (apply add_when_balanced; [reflexivity|]).
    reflexivity.
  - intros Ht Hn.
    unfold searchCitationsDB_statement, paginate, add_when.
    rewrite Ht, Hn. cbn [fst snd app].
    destruct (js_truthy (s_limit criteria)); [|reflexivity].
    destruct (js_truthy (s_offset criteria)); reflexivity.
Qed.

Lemma searchCitationsDB_placeholders_match_witness :
  placeholders
    (fst (searchCitationsDB_statement
            (mkSearchCriteria (Str "ruido") (Str "Ana") (Num 10) Undefined))) =
  length
    (snd (searchCitationsDB_statement
            (mkSearchCriteria (Str "ruido") (Str "Ana") (Num 10) Undefined)))
  /\ firstn 5
       (snd (searchCitationsDB_statement
               (mkSearchCriteria (Str "ruido") (Str "Ana") (Num 10) Undefined)))
     = [Str "%ruido%"; Str "%ruido%"; Str "%ruido%"; Str "%Ana%"; Str "%Ana%"].
Proof.
  destruct (searchCitationsDB_placeholders_match SampleValue sample_values
              (mkSearchCriteria (Str "ruido") (Str "Ana") (Num 10) Undefined))
    as [Hn Hp].
  split; [exact Hn | exact (Hp eq_refl eq_refl)].
Defined.

(** X28: the text of the statement depends on which filters are truthy
    and on nothing else: two requests whose filters are truthy at the same
    keys get the same statement text, whatever the values are.  No value
    of the request ever becomes part of the text. *)
Theorem getAllCitationsDB_text_ignores_values
    (V : Type) (ops : JsValues V) (f g : Filters V) :
  js_truthy (f_location f) = js_truthy (f_location g) ->
  js_truthy (f_date_from f) = js_truthy (f_date_from g) ->
  js_truthy (f_date_to f) = js_truthy (f_date_to g) ->
  js_truthy (f_fine_amount_min f) = js_truthy (f_fine_amount_min g) ->
  js_truthy (f_fine_amount_max f) = js_truthy (f_fine_amount_max g) ->
  js_truthy (f_limit f) = js_truthy (f_limit g) ->
  js_truthy (f_offset f) = js_truthy (f_offset g) ->
  fst (getAllCitationsDB_statement f) = fst (getAllCitationsDB_statement g).
Proof.
  intros H1 H2 H3 H4 H5 H6 H7.
  unfold getAllCitationsDB_statement.
  apply paginate_text; [exact H6 | exact H7 |].
  cbn [fst]. f_equal.
  repeat (apply add_when_text; [assumption|]).
  reflexivity.
Qed.

Lemma getAllCitationsDB_text_ignores_values_witness :
  fst (getAllCitationsDB_statement
         (mkFilters (Str "plaza") Undefined Undefined (Num 400) Undefined
                    (Num 10) (Num 20))) =
  fst (getAllCitationsDB_statement
         (mkFilters (Str "x' OR '1'='1") Undefined Undefined (Num 5) Undefined
                    (Num 99) (Num 1))).
Proof.
  apply (getAllCitationsDB_text_ignores_values SampleValue sample_values);
    reflexivity.
Defined.

(** X29: [OFFSET] is only added inside the branch that adds [LIMIT].
    When [limit] is falsy (absent, or the number 0) an [offset] in the
    request has no effect at all, in the listing and in the search. *)
Theorem offset_without_limit_is_ignored
    (V : Type) (ops : JsValues V) (f : Filters V) (c : SearchCriteria V)
    (v : V) :
  js_truthy (f_limit f) = false ->
  js_truthy (s_limit c) = false ->
  getAllCitationsDB_statement
    (mkFilters (f_location f) (f_date_from f) (f_date_to f)
               (f_fine_amount_min f) (f_fine_amount_max f) (f_limit f) v)
  = getAllCitationsDB_statement f
  /\ searchCitationsDB_statement
       (mkSearchCriteria (s_term c) (s_citizen_name c) (s_limit c) v)
     = searchCitationsDB_statement c.
Proof.
  intros Hf Hc.
  unfold getAllCitationsDB_statement, searchCitationsDB_statement, paginate.
  cbn [f_location f_date_from f_date_to f_fine_amount_min f_fine_amount_max
       f_limit f_offset s_term s_citizen_name s_limit s_offset].
  rewrite Hf, Hc. split; reflexivity.
Qed.

Lemma offset_without_limit_is_ignored_witness :
  getAllCitationsDB_statement
    (mkFilters (Str "plaza") Undefined Undefined Undefined Undefined
               (Num 0) (Num 40))
  = getAllCitationsDB_statement
      (mkFilters (Str "plaza") Undefined Undefined Undefined Undefined
                 (Num 0) Undefined)
  /\ searchCitationsDB_statement
       (mkSearchCriteria (Str "ruido") Undefined Undefined (Num 40))
     = searchCitationsDB_statement
         (mkSearchCriteria (Str "ruido") Undefined Undefined Undefined).
Proof.
  apply (offset_without_limit_is_ignored SampleValue sample_values
           (mkFilters (Str "plaza") Undefined Undefined Undefined Undefined
                      (Num 0) Undefined)
           (mkSearchCriteria (Str "ruido") Undefined Undefined Undefined)
           (Num 40));
    reflexivity.
Defined.
